(** * TPU spawn strategy and ColossalAI precision plugin

    A shallow embedding of
    [lightning_lite/lite/strategies/tpu_spawn.py] (class [TPUSpawnStrategy])
    and of [pytorch_lightning/plugins/precision/colossalai.py]
    (class [ColossalAIPrecisionPlugin]).

    Python exceptions are results of type [Result]; an object that a method
    mutates is passed in and returned; calls into collaborators that only
    matter through their effect (the checkpoint-I/O delegate, the optimizer)
    are recorded in a call log.  Tensor elements are exact rationals: the
    rounding of the accelerator's floating-point arithmetic is outside this
    model. *)

From Stdlib Require Import Ascii QArith Qround.
From stdpp Require Import gmap strings list.

Local Open Scope Z_scope.

(** ** Exceptions *)

Inductive Exception : Type :=
  | RuntimeError (msg : string)
  | ValueError (msg : string)
  | TypeError (msg : string)
  | IndexError (msg : string)
  | MisconfigurationException (msg : string).

Inductive Result (A : Type) : Type :=
  | Return (a : A)
  | Raise (e : Exception).

Arguments Return {A} a.
Arguments Raise {A} e.

Definition bind {A B} (r : Result A) (k : A -> Result B) : Result B :=
  match r with
  | Return a => k a
  | Raise e => Raise e
  end.

Notation "'let*' x ':=' r 'in' k" := (bind r (fun x => k))
  (at level 10, x name, r at level 100, k at level 200).

(** ** Devices and tensors *)

Inductive Device : Type :=
  | CPU
  | XLA (ordinal : nat).

(** A tensor: its shape, its elements in row-major order and the device
    that holds it. *)
Record Tensor : Type := mkTensor {
  t_shape : list nat;
  t_data : list Q;
  t_device : Device;
}.

(** [Tensor.dim] *)
Definition dim (t : Tensor) : nat := length (t_shape t).

(** [Tensor.unsqueeze(0)] *)
Definition unsqueeze0 (t : Tensor) : Tensor :=
  mkTensor (1%nat :: t_shape t) (t_data t) (t_device t).

(** [Tensor.cpu] *)
Definition cpu (t : Tensor) : Tensor :=
  mkTensor (t_shape t) (t_data t) CPU.

(** ** Collaborators *)

(** The checkpoint-I/O delegates a strategy can hold: the default
    [XLACheckpointIO()] or one supplied by the caller. *)
Inductive CheckpointIO : Type :=
  | XLACheckpointIO
  | UserCheckpointIO (id : nat).

(** The part of the accelerator runtime ([torch_xla.core.xla_model]) that
    one call sees in one process: the device [xm.xla_device()] returns
    there, and what the replicas of lower and of higher ordinal contribute
    to the collective the call takes part in. *)
Record XlaModel : Type := mkXlaModel {
  xla_device : Device;
  peers_below : list Tensor;
  peers_above : list Tensor;
}.

(** What the collective delivers: one contribution per replica, in
    ordinal order. *)
Definition replicas (xm : XlaModel) (own : Tensor) : list Tensor :=
  peers_below xm ++ own :: peers_above xm.

(** ** The strategy object *)

(** State kept by the base class [DDPSpawnStrategy] and read here through
    its properties [local_rank], [global_rank] and [world_size]. *)
Record DDPSpawnStrategy : Type := mkDDPSpawnStrategy {
  local_rank : Z;
  global_rank : Z;
  world_size : Z;
}.

Record TPUSpawnStrategy : Type := mkTPUSpawnStrategy {
  base : DDPSpawnStrategy;
  _checkpoint_io : option CheckpointIO;
  _launched : bool;
}.

(** [TPUSpawnStrategy.__init__]: [super().__init__] builds the base state
    and stores [checkpoint_io]; the strategy starts unlaunched. *)
Definition __init__ (super : DDPSpawnStrategy)
    (checkpoint_io : option CheckpointIO) : TPUSpawnStrategy :=
  mkTPUSpawnStrategy super checkpoint_io false.

Definition root_device_msg : string :=
  "Accessing the XLA device before processes have spawned is not allowed.".

(** [TPUSpawnStrategy.root_device] *)
Definition root_device (xm : XlaModel) (self : TPUSpawnStrategy)
    : Result Device :=
  if negb (_launched self) then Raise (RuntimeError root_device_msg)
  else Return (xla_device xm).

(** [TPUSpawnStrategy.checkpoint_io] (getter): the default delegate is
    created on first use and stored. *)
Definition checkpoint_io (self : TPUSpawnStrategy)
    : CheckpointIO * TPUSpawnStrategy :=
  match _checkpoint_io self with
  | None =>
      (XLACheckpointIO,
       mkTPUSpawnStrategy (base self) (Some XLACheckpointIO) (_launched self))
  | Some io => (io, self)
  end.

(** [TPUSpawnStrategy.checkpoint_io] (setter) *)
Definition set_checkpoint_io (io : option CheckpointIO)
    (self : TPUSpawnStrategy) : TPUSpawnStrategy :=
  mkTPUSpawnStrategy (base self) io (_launched self).

(** ** The worker process *)

(** A call received by a checkpoint-I/O delegate. *)
Inductive IOCall : Type :=
  | RemoveCheckpoint (io : CheckpointIO) (filepath : string).

(** What a method of the strategy can read or change in the process that
    runs it: the strategy object, the process-wide [rank_zero_only.rank],
    [os.environ], and the calls the checkpoint-I/O delegates have received
    so far (oldest first). *)
Record Process : Type := mkProcess {
  strategy : TPUSpawnStrategy;
  rank_zero_only_rank : Z;
  os_environ : gmap string string;
  io_calls : list IOCall;
}.

(** The inherited method [_worker_setup] calls.  [set_world_ranks] belongs
    to the base class, which knows its own state only. *)
Class DDPSpawnMethods : Type :=
  set_world_ranks : Z -> DDPSpawnStrategy -> DDPSpawnStrategy.

(** [TPUSpawnStrategy._worker_setup] *)
Definition _worker_setup `{DDPSpawnMethods} (process_idx : Z) (p : Process)
    : Process :=
  let self := strategy p in
  let self := mkTPUSpawnStrategy (base self) (_checkpoint_io self) true in
  let self :=
    mkTPUSpawnStrategy (set_world_ranks process_idx (base self))
      (_checkpoint_io self) (_launched self) in
  mkProcess self (global_rank (base self)) (os_environ p) (io_calls p).

(** [xenv.HOST_WORLD_SIZE], the name torch_xla gives the variable its
    launcher sets in the spawned processes. *)
Definition HOST_WORLD_SIZE : string := "XRT_HOST_WORLD_SIZE".

(** [TPUSpawnStrategy.is_distributed] *)
Definition is_distributed (p : Process) : bool :=
  bool_decide (is_Some (os_environ p !! HOST_WORLD_SIZE))
  && negb (world_size (base (strategy p)) =? 1).

(** [TPUSpawnStrategy.remove_checkpoint] *)
Definition remove_checkpoint (filepath : string) (p : Process) : Process :=
  if local_rank (base (strategy p)) =? 0 then
    let '(io, self) := checkpoint_io (strategy p) in
    mkProcess self (rank_zero_only_rank p) (os_environ p)
      (io_calls p ++ [RemoveCheckpoint io filepath])
  else p.

(** The calls that can change the strategy object, and a run of them in
    one process.  The collectives and [root_device] only read it. *)
Inductive Call : Type :=
  | GetCheckpointIO
  | SetCheckpointIO (io : option CheckpointIO)
  | CallRemoveCheckpoint (filepath : string)
  | CallWorkerSetup (process_idx : Z).

Definition call `{DDPSpawnMethods} (c : Call) (p : Process) : Process :=
  match c with
  | GetCheckpointIO =>
      mkProcess (snd (checkpoint_io (strategy p))) (rank_zero_only_rank p)
        (os_environ p) (io_calls p)
  | SetCheckpointIO io =>
      mkProcess (set_checkpoint_io io (strategy p)) (rank_zero_only_rank p)
        (os_environ p) (io_calls p)
  | CallRemoveCheckpoint filepath => remove_checkpoint filepath p
  | CallWorkerSetup process_idx => _worker_setup process_idx p
  end.

Definition run `{DDPSpawnMethods} (cs : list Call) (p : Process) : Process :=
  fold_left (fun p c => call c p) cs p.

Definition is_worker_setup (c : Call) : bool :=
  match c with
  | CallWorkerSetup _ => true
  | _ => false
  end.

(** ** Strings *)

(** [str.lower] on the ASCII range.  Outside it Python maps only U+212A to
    [k] and U+0130 to [i] plus a combining mark, and neither letter occurs
    in the operation names compared below. *)
Definition lower_ascii (c : ascii) : ascii :=
  let n := N_of_ascii c in
  if ((65 <=? n) && (n <=? 90))%N then ascii_of_N (n + 32) else c.

Fixpoint lower (s : string) : string :=
  match s with
  | EmptyString => EmptyString
  | String c s' => String (lower_ascii c) (lower s')
  end.

(** ** Reduce *)

(** [torch.distributed.ReduceOp] *)
Inductive ReduceOp : Type :=
  | SUM | AVG | PRODUCT | MIN | MAX | BAND | BOR | BXOR | PREMUL_SUM.

Global Instance ReduceOp_eq_dec : EqDecision ReduceOp.
Proof. solve_decision. Defined.

(** The values [reduce_op] can be bound to: [None], a [str], a [ReduceOp],
    or an object of any other type (told apart by [id]). *)
Inductive ReduceOpArg : Type :=
  | OpNone
  | OpStr (s : string)
  | OpEnum (op : ReduceOp)
  | OpOther (id : nat).

(** [isinstance(reduce_op, str)] and [isinstance(reduce_op, ReduceOp)] *)
Definition isinstance_str (reduce_op : ReduceOpArg) : bool :=
  match reduce_op with OpStr _ => true | _ => false end.

Definition isinstance_ReduceOp (reduce_op : ReduceOpArg) : bool :=
  match reduce_op with OpEnum _ => true | _ => false end.

Definition ReduceOp_name (op : ReduceOp) : string :=
  match op with
  | SUM => "SUM" | AVG => "AVG" | PRODUCT => "PRODUCT" | MIN => "MIN"
  | MAX => "MAX" | BAND => "BAND" | BOR => "BOR" | BXOR => "BXOR"
  | PREMUL_SUM => "PREMUL_SUM"
  end.

(** What the f-string [f" {reduce_op}"] prints after the blank; for an
    object of another type the text is of no consequence, since [reduce]
    never formats one. *)
Definition format_reduce_op (reduce_op : ReduceOpArg) : string :=
  match reduce_op with
  | OpNone => "None"
  | OpStr s => s
  | OpEnum op => "ReduceOp." +:+ ReduceOp_name op
  | OpOther _ => "<object>"
  end.

Definition reduce_msg : string :=
  "Currently, the TPUSpawnStrategy only supports `sum`, `mean`, `avg` for the reduce operation, got: ".

(** A Python number or a tensor: what [reduce] takes and what the built-in
    [sum] folds over. *)
Inductive PyVal : Type :=
  | PNum (q : Q)
  | PTensor (t : Tensor).

(** [torch.tensor(x, device=d)] for a number [x] *)
Definition torch_tensor (x : Q) (d : Device) : Tensor :=
  mkTensor [] [x] d.

Definition shape_msg : string :=
  "The size of tensor a must match the size of tensor b".

(** [a + b].  Two tensors are added element by element when their shapes
    agree; torch stretches some unequal shapes to a common one, which is
    not modelled: unequal shapes raise.  The elements are added as exact
    rationals, where torch rounds and overflows as the dtype has it: the
    results on [reduce] below say which sum is taken and in which order,
    not what it amounts to. *)
Definition py_add (a b : PyVal) : Result PyVal :=
  match a, b with
  | PNum x, PNum y => Return (PNum (x + y))
  | PNum x, PTensor t =>
      Return (PTensor (mkTensor (t_shape t)
                (map (fun y => y + x)%Q (t_data t)) (t_device t)))
  | PTensor t, PNum y =>
      Return (PTensor (mkTensor (t_shape t)
                (map (fun x => x + y)%Q (t_data t)) (t_device t)))
  | PTensor t, PTensor u =>
      if bool_decide (t_shape t = t_shape u) then
        Return (PTensor (mkTensor (t_shape t)
                  (zip_with Qplus (t_data t) (t_data u)) (t_device t)))
      else Raise (RuntimeError shape_msg)
  end.

(** The built-in [sum]: a left fold of [+] that starts from the integer
    [0]. *)
Definition py_sum (xs : list Tensor) : Result PyVal :=
  fold_left (fun acc x => let* a := acc in py_add a (PTensor x)) xs
    (Return (PNum 0)).

(** [output / n] for an integer [n], again in exact rationals (where
    division by zero gives zero, and torch an infinity). *)
Definition py_truediv (output : PyVal) (n : Z) : PyVal :=
  match output with
  | PNum x => PNum (x / inject_Z n)
  | PTensor t =>
      PTensor (mkTensor (t_shape t)
                 (map (fun x => x / inject_Z n)%Q (t_data t)) (t_device t))
  end.

(** [xm.mesh_reduce(tag, data, reduce_fn)]: every replica moves its data
    to the CPU and sends it; each receives the data of all replicas in
    ordinal order and applies [reduce_fn] to that list. *)
Definition mesh_reduce (xm : XlaModel) (tag : string) (data : Tensor)
    (reduce_fn : list Tensor -> Result PyVal) : Result PyVal :=
  let cpu_data := cpu data in
  let xldata := map cpu (replicas xm data) in
  match xldata with
  | [] => Return (PTensor cpu_data)
  | _ => reduce_fn xldata
  end.

(** The two flags [reduce] computes before it raises. *)
Definition invalid_reduce_op (reduce_op : ReduceOpArg) : bool :=
  match reduce_op with
  | OpEnum op => negb (bool_decide (op = SUM))
  | _ => false
  end.

Definition invalid_reduce_op_str (reduce_op : ReduceOpArg) : bool :=
  match reduce_op with
  | OpStr s => negb (bool_decide (lower s ∈ ["sum"; "mean"; "avg"]))
  | _ => false
  end.

(** The first statement of [reduce]: an output that is not a tensor is
    made one on [root_device]. *)
Definition output_tensor (xm : XlaModel) (self : TPUSpawnStrategy)
    (output : PyVal) : Result Tensor :=
  match output with
  | PTensor t => Return t
  | PNum x => let* d := root_device xm self in Return (torch_tensor x d)
  end.

(** [TPUSpawnStrategy.reduce] ([group] is not used). *)
Definition reduce (xm : XlaModel) (self : TPUSpawnStrategy) (output : PyVal)
    (reduce_op : ReduceOpArg) : Result PyVal :=
  let* output := output_tensor xm self output in
  if invalid_reduce_op reduce_op || invalid_reduce_op_str reduce_op then
    Raise (ValueError (reduce_msg +:+ format_reduce_op reduce_op))
  else
    let* output := mesh_reduce xm "reduce" output py_sum in
    match reduce_op with
    | OpStr s =>
        if bool_decide (lower s ∈ ["avg"; "mean"]) then
          Return (py_truediv output (world_size (base self)))
        else Return output
    | _ => Return output
    end.

(** ** All-gather and broadcast *)

Definition all_gather_msg : string :=
  "all_gather needs a tensor of at least one dimension".

(** [xm.all_gather(value)], with its default [dim=0]: the values of all
    replicas joined along the first dimension, in ordinal order.  Every
    replica passes the same shape, so the first dimension grows by the
    number of replicas.  A tensor without dimensions has no first one. *)
Definition xm_all_gather (xm : XlaModel) (value : Tensor) : Result Tensor :=
  match t_shape value with
  | [] => Raise (IndexError all_gather_msg)
  | size :: rest =>
      let values := replicas xm value in
      Return (mkTensor ((length values * size)%nat :: rest)
                (concat (map t_data values)) (t_device value))
  end.

(** [TPUSpawnStrategy.all_gather] ([group] and [sync_grads] are not
    used). *)
Definition all_gather (xm : XlaModel) (tensor : Tensor) : Result Tensor :=
  let tensor :=
    if (dim tensor =? 0)%nat then unsqueeze0 tensor else tensor in
  xm_all_gather xm tensor.

(** [torch.save] into a buffer and [torch.load] from one, for the objects
    of type [Obj]. *)
Class Pickle (Obj : Type) : Type := {
  torch_save : Obj -> list Byte.byte;
  torch_load : list Byte.byte -> Result Obj;
}.

Definition Q_of_byte (b : Byte.byte) : Q := inject_Z (Z.of_N (Byte.to_N b)).

(** What [Tensor.byte()] makes of one element: the fraction is dropped and
    the integer wraps around at 256. *)
Definition byte_of_Q (x : Q) : Byte.byte :=
  let z := if Qle_bool 0 x then Qfloor x else Qceiling x in
  match Byte.of_N (Z.to_N (z mod 256)) with
  | Some b => b
  | None => Byte.x00
  end.

(** [torch.tensor(data, device=d, dtype=torch.float)] for a [bytearray]:
    one element per byte. *)
Definition torch_tensor_bytes (data : list Byte.byte) (d : Device) : Tensor :=
  mkTensor [length data] (map Q_of_byte data) d.

(** [data.cpu().byte().numpy()], read as a buffer *)
Definition to_buffer (data : Tensor) : list Byte.byte :=
  map byte_of_Q (t_data (cpu data)).

(** [TPUSpawnStrategy.broadcast] ([src] is not used). *)
Definition broadcast `{Pickle Obj} (xm : XlaModel) (p : Process) (obj : Obj)
    (src : Z) : Result Obj :=
  if negb (is_distributed p) then Return obj
  else
    let buffer := torch_save obj in
    let data := buffer in
    let* d := root_device xm (strategy p) in
    let data_tensor := torch_tensor_bytes data d in
    let* data := xm_all_gather xm data_tensor in
    let buffer := to_buffer data in
    torch_load buffer.

(** ** Dataloader validation *)

(** A dataloader, as far as validation looks at it: [len(dataloader)], or
    [None] when taking the length raises. *)
Record DataLoader : Type := mkDataLoader {
  dataloader_len : option nat;
}.

(** What the caller may pass for [dataloaders]: one dataloader, or
    sequences and mappings of them, nested to any depth. *)
#[local] Unset Elimination Schemes.
Inductive Collection (A : Type) : Type :=
  | Leaf (a : A)
  | PySequence (items : list (Collection A))
  | PyMapping (items : list (string * Collection A)).
#[local] Set Elimination Schemes.

Arguments Leaf {A} a.
Arguments PySequence {A} items.
Arguments PyMapping {A} items.

(** Induction over a collection and the collections inside it. *)
Section CollectionInd.
Context {A : Type} (P : Collection A -> Prop).
Hypothesis HLeaf : forall a, P (Leaf a).
Hypothesis HSequence : forall items, Forall P items -> P (PySequence items).
Hypothesis HMapping :
  forall items, Forall (fun kd => P (snd kd)) items -> P (PyMapping items).

Fixpoint Collection_ind (data : Collection A) : P data :=
  match data with
  | Leaf a => HLeaf a
  | PySequence items =>
      HSequence items
        ((fix each (l : list (Collection A)) : Forall P l :=
            match l with
            | [] => @List.Forall_nil _ P
            | d :: l' => @List.Forall_cons _ P d l' (Collection_ind d) (each l')
            end) items)
  | PyMapping items =>
      HMapping items
        ((fix each (l : list (string * Collection A))
              : Forall (fun kd => P (snd kd)) l :=
            match l with
            | [] => @List.Forall_nil _ _
            | kd :: l' =>
                @List.Forall_cons _ (fun kd => P (snd kd)) kd l'
                  (Collection_ind (snd kd)) (each l')
            end) items)
  end.
End CollectionInd.

(** Modelled from the spec: [has_len] of
    [lightning_lite/lite/utilities/data.py] is not in src/; it tells
    whether the dataloader supports length introspection. *)
Definition has_len (dataloader : DataLoader) : bool :=
  bool_decide (is_Some (dataloader_len dataloader)).

(** Modelled from the spec: [apply_to_collection] of
    [lightning_lite/lite/utilities/apply_func.py] is not in src/.  With
    [dtype=object] and [wrong_dtype=(Sequence, Mapping)] it applies
    [function] to every element that is neither a sequence nor a mapping,
    going through the items of sequences and the values of mappings in
    order, to any depth; the first exception ends the walk. *)
Fixpoint apply_to_collection {A B} (function : A -> Result B)
    (data : Collection A) : Result (Collection B) :=
  match data with
  | Leaf a => let* b := function a in Return (Leaf b)
  | PySequence items =>
      let* out :=
        (fix each (l : list (Collection A)) : Result (list (Collection B)) :=
           match l with
           | [] => Return []
           | d :: l' =>
               let* v := apply_to_collection function d in
               let* vs := each l' in
               Return (v :: vs)
           end) items in
      Return (PySequence out)
  | PyMapping items =>
      let* out :=
        (fix each (l : list (string * Collection A))
             : Result (list (string * Collection B)) :=
           match l with
           | [] => Return []
           | (k, d) :: l' =>
               let* v := apply_to_collection function d in
               let* vs := each l' in
               Return ((k, v) :: vs)
           end) items in
      Return (PyMapping out)
  end.

Definition check_has_len_msg : string :=
  "TPUs do not currently support IterableDataset objects, the dataset must implement `__len__`. HINT: You can mock the length on your dataset to bypass this MisconfigurationException.".

(** The local function [check_has_len] of [_validate_dataloader] *)
Definition check_has_len (dataloader : DataLoader) : Result unit :=
  if negb (has_len dataloader) then Raise (TypeError check_has_len_msg)
  else Return tt.

(** [TPUSpawnStrategy._validate_dataloader] *)
Definition _validate_dataloader (dataloaders : Collection DataLoader)
    : Result unit :=
  let* _ := apply_to_collection check_has_len dataloaders in
  Return tt.

(** The dataloaders of a collection, in the order of the walk. *)
Fixpoint leaves {A} (data : Collection A) : list A :=
  match data with
  | Leaf a => [a]
  | PySequence items => concat (map leaves items)
  | PyMapping items => concat (map (fun kd => leaves (snd kd)) items)
  end.

(** ** ColossalAI precision plugin *)

(** The [model] argument: a [pl.LightningModule] with its
    [automatic_optimization] flag, or a module of another class. *)
Inductive Model : Type :=
  | LightningModule (automatic_optimization : bool)
  | OtherModule.

(** The calls [optimizer_step] makes on its collaborators. *)
Inductive PluginCall : Type :=
  | CallClosure
  | CallAfterClosure (optimizer : nat) (optimizer_idx : Z)
  | CallOptimizerStep (optimizer : nat).

Global Instance PluginCall_eq_dec : EqDecision PluginCall.
Proof. solve_decision. Defined.

Definition skip_msg : string :=
  "Skipping backward by returning `None` from your `training_step` is not supported by `Colossalai`".

(** [ColossalAIPrecisionPlugin.optimizer_step].  [closure_result] is what
    [closure()] returns, [calls] the calls made before this one; the
    result comes with the calls made up to the return or the raise. *)
Definition optimizer_step (model : Model) (optimizer : nat)
    (optimizer_idx : Z) (closure_result : option Tensor)
    (calls : list PluginCall) : Result unit * list PluginCall :=
  let calls := calls ++ [CallClosure] in
  let calls := calls ++ [CallAfterClosure optimizer optimizer_idx] in
  let skipped_backward := bool_decide (closure_result = None) in
  if match model with
     | LightningModule automatic_optimization =>
         automatic_optimization && skipped_backward
     | OtherModule => false
     end
  then (Raise (MisconfigurationException skip_msg), calls)
  else (Return tt, calls ++ [CallOptimizerStep optimizer]).

(** How often [optimizer.step()] occurs among some calls. *)
Definition steps (optimizer : nat) (calls : list PluginCall) : nat :=
  length (filter (fun c => c = CallOptimizerStep optimizer) calls).

(** ** Agreement of the replicas *)

(** The replicas of a collective agree on shape and size. *)
Definition same_shape (sh : list nat) (n : nat) (u : Tensor) : Prop :=
  t_shape u = sh /\ length (t_data u) = n.

(** ** Further methods of the strategy *)

(** [TPUSpawnStrategy.distributed_sampler_kwargs] *)
Definition distributed_sampler_kwargs (self : TPUSpawnStrategy)
    : gmap string Z :=
  {[ "num_replicas" := world_size (base self);
     "rank" := global_rank (base self) ]}.

(** The inherited [teardown], which [TPUSpawnStrategy.teardown] calls
    first; it may change anything in the process. *)
Class DDPSpawnTeardown : Type :=
  super_teardown : Process -> Process.

(** [TPUSpawnStrategy.teardown]: [os.environ.pop] with a default removes
    the variable when it is there and does nothing otherwise. *)
Definition teardown `{DDPSpawnTeardown} (p : Process) : Process :=
  let p := super_teardown p in
  mkProcess (strategy p) (rank_zero_only_rank p)
    (delete "PT_XLA_DEBUG" (os_environ p)) (io_calls p).

(** An [MpDeviceLoader]: the loader it wraps, the device it feeds, and the
    [dataset] attribute, which it lacks until [process_dataloader] sets
    it. *)
Record MpDeviceLoader (Dataset : Type) : Type := mkMpDeviceLoader {
  _loader : DataLoader;
  loader_device : Device;
  dataset : option Dataset;
}.

Arguments mkMpDeviceLoader {Dataset} _ _ _.
Arguments _loader {Dataset} _.
Arguments loader_device {Dataset} _.
Arguments dataset {Dataset} _.

(** The [dataset] attribute of a [DataLoader]. *)
Class DataLoaderDataset (Dataset : Type) : Type :=
  dataloader_dataset : DataLoader -> Dataset.

(** [TPUSpawnStrategy.process_dataloader] *)
Definition process_dataloader `{DataLoaderDataset Dataset} (xm : XlaModel)
    (self : TPUSpawnStrategy) (dataloader : DataLoader)
    : Result (MpDeviceLoader Dataset) :=
  let* _ := _validate_dataloader (Leaf dataloader) in
  let* d := root_device xm self in
  let dataloader := @mkMpDeviceLoader Dataset dataloader d None in
  let dataloader :=
    mkMpDeviceLoader (_loader dataloader) (loader_device dataloader)
      (Some (dataloader_dataset (_loader dataloader))) in
  Return dataloader.

(** A [save_checkpoint] received by a checkpoint-I/O delegate. *)
Inductive SaveCall (Checkpoint Options : Type) : Type :=
  | SaveCheckpoint (io : CheckpointIO) (checkpoint : Checkpoint)
      (filepath : string) (storage_options : option Options).

Arguments SaveCheckpoint {Checkpoint Options} io checkpoint filepath
  storage_options.

(** [TPUSpawnStrategy.save_checkpoint]; [saves] are the saves the
    delegates have received so far, oldest first. *)
Definition save_checkpoint {Checkpoint Options : Type}
    (checkpoint : Checkpoint) (filepath : string)
    (storage_options : option Options)
    (p : Process) (saves : list (SaveCall Checkpoint Options))
    : Process * list (SaveCall Checkpoint Options) :=
  let '(io, self) := checkpoint_io (strategy p) in
  (mkProcess self (rank_zero_only_rank p) (os_environ p) (io_calls p),
   saves ++ [SaveCheckpoint io checkpoint filepath storage_options]).

(** The processes of a node save one after the other. *)
Fixpoint save_checkpoint_all {Checkpoint Options : Type}
    (checkpoint : Checkpoint) (filepath : string)
    (storage_options : option Options)
    (ps : list Process) (saves : list (SaveCall Checkpoint Options))
    : list Process * list (SaveCall Checkpoint Options) :=
  match ps with
  | [] => ([], saves)
  | p :: ps' =>
      let '(p', saves) :=
        save_checkpoint checkpoint filepath storage_options p saves in
      let '(ps'', saves) :=
        save_checkpoint_all checkpoint filepath storage_options ps' saves in
      (p' :: ps'', saves)
  end.

(** ** Several processes and sample values *)

(** The calls received by the checkpoint-I/O delegates of some processes,
    counted over all of them. *)
Definition removals (ps : list Process) : nat :=
  sum_list (map (fun p => length (io_calls p)) ps).

(** Buffers saved and loaded as they are. *)
Global Instance Pickle_buffer : Pickle (list Byte.byte) := {
  torch_save obj := obj;
  torch_load buffer := Return buffer;
}.

Global Instance sample_methods : DDPSpawnMethods :=
  fun process_idx super =>
    mkDDPSpawnStrategy process_idx process_idx (world_size super).

(** A process of a world of two, before and after its worker setup. *)
Definition sample_process : Process :=
  mkProcess (__init__ (mkDDPSpawnStrategy 0 0 2) None) 0
    {[ HOST_WORLD_SIZE := "2" ]} [].

Definition sample_worker (process_idx : Z) : Process :=
  _worker_setup process_idx sample_process.

(** What process 0 of that world sees of the runtime while the other
    process contributes the scalar 3 to the collective. *)
Definition sample_xm : XlaModel :=
  mkXlaModel (XLA 0) [] [torch_tensor 3 (XLA 1)].

(** What process 0 sees while the other process broadcasts the buffer
    [03 04]. *)
Definition sample_xm_bytes : XlaModel :=
  mkXlaModel (XLA 0) []
    [torch_tensor_bytes [Byte.x03; Byte.x04] (XLA 1)].

(** What process 0 sees while the other process gathers the vector
    [(3, 4)]. *)
Definition sample_xm_vector : XlaModel :=
  mkXlaModel (XLA 0) [] [mkTensor [2%nat] [3%Q; 4%Q] (XLA 1)].



(** A dataloader's dataset, for the samples: named by its length. *)
Global Instance sample_dataset : DataLoaderDataset (option nat) :=
  dataloader_len.

(** * Properties *)

(** ** Launch guard *)

Lemma launched_call `{DDPSpawnMethods} (c : Call) (p : Process) :
  _launched (strategy (call c p))
  = _launched (strategy p) || is_worker_setup c.
Proof.
  destruct c as [ | io | filepath | process_idx ]; simpl.
  - unfold checkpoint_io.
    destruct (_checkpoint_io (strategy p)); simpl; by rewrite orb_false_r.
  - by rewrite orb_false_r.
  - unfold remove_checkpoint, checkpoint_io.
    destruct (local_rank (base (strategy p)) =? 0);
      [ destruct (_checkpoint_io (strategy p)) | ];
      simpl; by rewrite orb_false_r.
  - by rewrite orb_true_r.
Qed.

Lemma launched_run `{DDPSpawnMethods} (cs : list Call) (p : Process) :
  _launched (strategy (run cs p))
  = _launched (strategy p) || existsb is_worker_setup cs.
Proof.
  revert p.
  induction cs as [ | c cs IH ]; intros p.
  - simpl. by rewrite orb_false_r.
  - change (run (c :: cs) p) with (run cs (call c p)).
    rewrite IH, launched_call. simpl. by rewrite orb_assoc.
Qed.

(** C1.  Take a strategy as [__init__] leaves it and let its process make
    any calls that change it.  Reading [root_device] afterwards raises the
    [RuntimeError] as long as [_worker_setup] is not among the calls, and
    returns the device of [xm.xla_device()] once it is, whatever process
    index it was given. *)
Theorem root_device_launch_guard `{DDPSpawnMethods} (xm : XlaModel)
    (super : DDPSpawnStrategy) (io : option CheckpointIO) (rank : Z)
    (environ : gmap string string) (cs : list Call) :
  root_device xm
    (strategy (run cs (mkProcess (__init__ super io) rank environ [])))
  = if existsb is_worker_setup cs then Return (xla_device xm)
    else Raise (RuntimeError root_device_msg).
Proof.
  unfold root_device. rewrite launched_run. simpl.
  by destruct (existsb is_worker_setup cs).
Qed.

(** ** Checkpoint removal *)

Lemma remove_checkpoint_other_rank (filepath : string) (p : Process) :
  local_rank (base (strategy p)) ≠ 0 -> remove_checkpoint filepath p = p.
Proof.
  intros Hrank. unfold remove_checkpoint.
  by destruct (Z.eqb_spec (local_rank (base (strategy p))) 0).
Qed.

Lemma remove_checkpoint_rank_zero (filepath : string) (p : Process) :
  local_rank (base (strategy p)) = 0 ->
  io_calls (remove_checkpoint filepath p)
  = io_calls p ++ [RemoveCheckpoint (fst (checkpoint_io (strategy p))) filepath].
Proof.
  intros Hrank. unfold remove_checkpoint. rewrite Hrank. simpl.
  by destruct (checkpoint_io (strategy p)).
Qed.

Lemma remove_checkpoint_no_rank_zero (filepath : string) (ps : list Process) :
  0 ∉ map (fun p => local_rank (base (strategy p))) ps ->
  map (remove_checkpoint filepath) ps = ps.
Proof.
  induction ps as [ | p ps IH ]; intros Hnot; [ done | ].
  simpl in *. apply not_elem_of_cons in Hnot as [Hp Hps].
  rewrite remove_checkpoint_other_rank by done.
  by rewrite IH.
Qed.

Lemma removals_at_most_one (filepath : string) (ps : list Process) :
  NoDup (map (fun p => local_rank (base (strategy p))) ps) ->
  (removals (map (remove_checkpoint filepath) ps) <= removals ps + 1)%nat.
Proof.
  unfold removals.
  induction ps as [ | p ps IH ]; intros Hnodup; simpl in *; [ lia | ].
  apply NoDup_cons in Hnodup as [Hp Hps].
  destruct (decide (local_rank (base (strategy p)) = 0)) as [H0 | H0].
  - rewrite H0 in Hp.
    rewrite remove_checkpoint_no_rank_zero by done.
    rewrite remove_checkpoint_rank_zero by done.
    rewrite length_app. simpl. lia.
  - rewrite remove_checkpoint_other_rank by done.
    specialize (IH Hps). lia.
Qed.

(** C4.  Let the processes of one node, which have distinct local ranks,
    each call [remove_checkpoint] with the same path.  The process of
    local rank 0 sends its delegate exactly one [remove_checkpoint], for
    that path; every other process is left as it was, its delegate not
    called; over the whole node at most one removal is made. *)
Theorem remove_checkpoint_once (filepath : string) (ps : list Process) :
  NoDup (map (fun p => local_rank (base (strategy p))) ps) ->
  Forall (fun p =>
    if local_rank (base (strategy p)) =? 0 then
      io_calls (remove_checkpoint filepath p)
      = io_calls p
        ++ [RemoveCheckpoint (fst (checkpoint_io (strategy p))) filepath]
    else remove_checkpoint filepath p = p) ps
  /\ (removals (map (remove_checkpoint filepath) ps) <= removals ps + 1)%nat.
Proof.
  intros Hnodup. split; [ | by apply removals_at_most_one ].
  apply Forall_forall. intros p _.
  destruct (Z.eqb_spec (local_rank (base (strategy p))) 0).
  - by apply remove_checkpoint_rank_zero.
  - by apply remove_checkpoint_other_rank.
Qed.

Lemma remove_checkpoint_once_witness :
  NoDup (map (fun p => local_rank (base (strategy p)))
           [sample_worker 0; sample_worker 1])
  /\ (removals (map (remove_checkpoint "last.ckpt")
                  [sample_worker 0; sample_worker 1])
      <= removals [sample_worker 0; sample_worker 1] + 1)%nat.
Proof.
  assert (Hnodup : NoDup (map (fun p => local_rank (base (strategy p)))
                            [sample_worker 0; sample_worker 1])).
  { apply NoDup_cons. split; [ | apply NoDup_singleton ].
    intros Hin. apply list_elem_of_singleton in Hin. discriminate Hin. }
  split; [ exact Hnodup | ].
  exact (proj2 (remove_checkpoint_once "last.ckpt" _ Hnodup)).
Defined.

(** ** Broadcast outside a distributed run *)

Lemma is_distributed_false (p : Process) :
  is_distributed p = false
  <-> os_environ p !! HOST_WORLD_SIZE = None
      \/ world_size (base (strategy p)) = 1.
Proof.
  unfold is_distributed.
  rewrite andb_false_iff, bool_decide_eq_false, negb_false_iff, Z.eqb_eq.
  by rewrite <- eq_None_not_Some.
Qed.

(** C5.  When the environment lacks [HOST_WORLD_SIZE] or the world size is
    1, [is_distributed] is false and [broadcast] returns the object it was
    given, whatever the object and the source rank. *)
Theorem broadcast_identity `{Pickle Obj} (xm : XlaModel) (p : Process)
    (obj : Obj) (src : Z) :
  os_environ p !! HOST_WORLD_SIZE = None
  \/ world_size (base (strategy p)) = 1 ->
  is_distributed p = false /\ broadcast xm p obj src = Return obj.
Proof.
  intros Hnot. apply is_distributed_false in Hnot.
  split; [ done | ]. unfold broadcast. by rewrite Hnot.
Qed.

Lemma broadcast_identity_witness :
  (os_environ (mkProcess (__init__ (mkDDPSpawnStrategy 0 0 1) None) 0
                 {[ HOST_WORLD_SIZE := "2" ]} []) !! HOST_WORLD_SIZE = None
   \/ world_size (mkDDPSpawnStrategy 0 0 1) = 1)
  /\ broadcast (mkXlaModel (XLA 0) [] [])
       (mkProcess (__init__ (mkDDPSpawnStrategy 0 0 1) None) 0
          {[ HOST_WORLD_SIZE := "2" ]} [])
       [Byte.x01; Byte.x02] 0
     = Return [Byte.x01; Byte.x02].
Proof.
  split; [ right; reflexivity | ].
  apply (broadcast_identity (mkXlaModel (XLA 0) [] [])
           (mkProcess (__init__ (mkDDPSpawnStrategy 0 0 1) None) 0
              {[ HOST_WORLD_SIZE := "2" ]} [])
           [Byte.x01; Byte.x02] 0).
  right. reflexivity.
Defined.

(** ** Dataloader validation *)

Lemma apply_check_has_len (data : Collection DataLoader) :
  (let* _ := apply_to_collection check_has_len data in Return tt)
  = if forallb has_len (leaves data) then Return tt
    else Raise (TypeError check_has_len_msg).
Proof.
  induction data as [ dl | items IH | items IH ] using Collection_ind.
  - simpl. unfold check_has_len. by destruct (has_len dl).
  - simpl.
    induction IH as [ | d l Hd _ IHl ]; [ done | ].
    simpl in *. rewrite forallb_app.
    destruct (apply_to_collection check_has_len d) as [ v | e ]; simpl in *.
    + destruct (forallb has_len (leaves d)); [ | discriminate Hd ]. simpl.
      match goal with
      | |- context [ bind (?each l) _ ] => destruct (each l) as [ vs | e ]
      end; simpl in *; exact IHl.
    + destruct (forallb has_len (leaves d)); [ discriminate Hd | ].
      simpl. exact Hd.
  - simpl.
    induction IH as [ | [k d] l Hd _ IHl ]; [ done | ].
    simpl in *. rewrite forallb_app.
    destruct (apply_to_collection check_has_len d) as [ v | e ]; simpl in *.
    + destruct (forallb has_len (leaves d)); [ | discriminate Hd ]. simpl.
      match goal with
      | |- context [ bind (?each l) _ ] => destruct (each l) as [ vs | e ]
      end; simpl in *; exact IHl.
    + destruct (forallb has_len (leaves d)); [ discriminate Hd | ].
      simpl. exact Hd.
Qed.

(** C7.  Whatever the nesting of sequences and mappings, validation
    returns when every dataloader in the collection has a length and
    raises the [TypeError] of [check_has_len] when one of them has none;
    so it does for a dataloader without a length inside a list inside a
    mapping. *)
Theorem validate_dataloader_leaves (dataloaders : Collection DataLoader) :
  _validate_dataloader dataloaders
  = if forallb has_len (leaves dataloaders) then Return tt
    else Raise (TypeError check_has_len_msg).
Proof. exact (apply_check_has_len dataloaders). Qed.

Lemma validate_dataloader_nested_rejected :
  _validate_dataloader
    (PyMapping
       [("train", Leaf (mkDataLoader (Some 8%nat)));
        ("val", PySequence [Leaf (mkDataLoader (Some 4%nat));
                            Leaf (mkDataLoader None)])])
  = Raise (TypeError check_has_len_msg).
Proof. reflexivity. Qed.

Lemma validate_dataloader_nested_accepted :
  _validate_dataloader
    (PyMapping
       [("train", Leaf (mkDataLoader (Some 8%nat)));
        ("val", PySequence [Leaf (mkDataLoader (Some 4%nat));
                            PySequence []])])
  = Return tt.
Proof. reflexivity. Qed.

(** ** Optimizer step of the ColossalAI plugin *)

Lemma steps_app (optimizer : nat) (calls calls' : list PluginCall) :
  steps optimizer (calls ++ calls')
  = (steps optimizer calls + steps optimizer calls')%nat.
Proof. unfold steps. by rewrite filter_app, length_app. Qed.

(** C9.  [optimizer_step] runs the closure and the after-closure hook
    first.  When the model is a [LightningModule] with automatic
    optimization and the closure returned [None], it raises the
    [MisconfigurationException] and [optimizer.step()] is not called; in
    every other case it returns and [optimizer.step()] has been called
    once. *)
Theorem optimizer_step_skipped_backward (model : Model) (optimizer : nat)
    (optimizer_idx : Z) (closure_result : option Tensor)
    (calls : list PluginCall) :
  let before :=
    calls ++ [CallClosure; CallAfterClosure optimizer optimizer_idx] in
  let ran := optimizer_step model optimizer optimizer_idx closure_result calls in
  match model, closure_result with
  | LightningModule true, None =>
      ran = (Raise (MisconfigurationException skip_msg), before)
      /\ steps optimizer (snd ran) = steps optimizer calls
  | _, _ =>
      ran = (Return tt, before ++ [CallOptimizerStep optimizer])
      /\ steps optimizer (snd ran) = S (steps optimizer calls)
  end.
Proof.
  assert (Hbefore :
    steps optimizer [CallClosure; CallAfterClosure optimizer optimizer_idx]
    = 0%nat).
  { unfold steps.
    repeat (rewrite filter_cons; case_decide; [ discriminate | ]).
    reflexivity. }
  assert (Hstep : steps optimizer [CallOptimizerStep optimizer] = 1%nat).
  { unfold steps. rewrite filter_cons. by case_decide. }
  assert (Hcalls :
    (calls ++ [CallClosure]) ++ [CallAfterClosure optimizer optimizer_idx]
    = calls ++ [CallClosure; CallAfterClosure optimizer optimizer_idx]).
  { by rewrite <- app_assoc. }
  unfold optimizer_step. rewrite Hcalls.
  destruct model as [ [ | ] | ], closure_result as [ loss | ]; simpl;
    (split; [ reflexivity | ]);
    rewrite ?steps_app, ?Hbefore, ?Hstep; lia.
Qed.

(** ** Reduce *)

Lemma length_zip_with_same (a b : list Q) (n : nat) :
  length a = n -> length b = n -> length (zip_with Qplus a b) = n.
Proof. intros Ha Hb. rewrite length_zip_with. lia. Qed.

Lemma fold_zip_with_length (ds : list (list Q)) (acc : list Q) (n : nat) :
  length acc = n -> Forall (fun d => length d = n) ds ->
  length (fold_left (zip_with Qplus) ds acc) = n.
Proof.
  intros Hacc Hds. revert acc Hacc.
  induction Hds as [ | d ds Hd _ IH ]; intros acc Hacc; simpl; [ done | ].
  apply IH. by apply length_zip_with_same.
Qed.

Lemma py_sum_fold (sh : list nat) (d : Device) (us : list Tensor)
    (acc : list Q) :
  Forall (fun u => t_shape u = sh) us ->
  fold_left (fun acc x => let* a := acc in py_add a (PTensor x)) us
    (Return (PTensor (mkTensor sh acc d)))
  = Return (PTensor (mkTensor sh
              (fold_left (zip_with Qplus) (map t_data us) acc) d)).
Proof.
  intros Hus. revert acc.
  induction Hus as [ | u us Hu _ IH ]; intros acc; simpl; [ done | ].
  rewrite bool_decide_eq_true_2 by done. apply IH.
Qed.

Lemma py_sum_returns (sh : list nat) (n : nat) (u0 : Tensor)
    (us : list Tensor) :
  Forall (same_shape sh n) (u0 :: us) ->
  exists r,
    py_sum (u0 :: us) = Return (PTensor r)
    /\ t_shape r = sh /\ length (t_data r) = n.
Proof.
  intros Hall. apply Forall_cons in Hall as [[Hsh0 Hn0] Hus].
  assert (Hshapes : Forall (fun u => t_shape u = sh) us).
  { eapply Forall_impl; [ exact Hus | ]. by intros u [Hu _]. }
  assert (Hsizes : Forall (fun d => length d = n) (map t_data us)).
  { apply Forall_fmap. eapply Forall_impl; [ exact Hus | ].
    by intros u [_ Hu]. }
  eexists. split.
  - unfold py_sum. simpl. rewrite Hsh0. by apply py_sum_fold.
  - simpl. split; [ done | ].
    apply fold_zip_with_length; [ by rewrite length_map | done ].
Qed.

Lemma py_add_raises (a b : PyVal) (e : Exception) :
  py_add a b = Raise e -> e = RuntimeError shape_msg.
Proof.
  destruct a as [ x | t ], b as [ y | u ]; simpl; try discriminate.
  case_bool_decide; [ discriminate | ]. by intros [= <-].
Qed.

Lemma py_sum_raises (us : list Tensor) (e : Exception) :
  py_sum us = Raise e -> e = RuntimeError shape_msg.
Proof.
  unfold py_sum.
  assert (Hstart : forall e, @Return PyVal (PNum 0) = Raise e ->
                             e = RuntimeError shape_msg) by discriminate.
  revert Hstart. generalize (@Return PyVal (PNum 0)) as acc.
  induction us as [ | u us IH ]; intros acc Hacc; simpl.
  - apply Hacc.
  - apply IH. intros e'. destruct acc as [ a | e0 ]; simpl.
    + apply py_add_raises.
    + apply Hacc.
Qed.

Lemma mesh_reduce_py_sum (xm : XlaModel) (tag : string) (t : Tensor) :
  mesh_reduce xm tag t py_sum = py_sum (map cpu (replicas xm t)).
Proof.
  unfold mesh_reduce.
  destruct (replicas xm t) as [ | u0 us ] eqn:Hreplicas; [ | done ].
  unfold replicas in Hreplicas. by destruct (peers_below xm).
Qed.

Lemma py_sum_replicas_returns (xm : XlaModel) (t : Tensor)
    (sh : list nat) (n : nat) :
  Forall (same_shape sh n) (replicas xm t) ->
  exists r,
    py_sum (map cpu (replicas xm t)) = Return (PTensor r)
    /\ t_shape r = sh /\ length (t_data r) = n.
Proof.
  intros Hall.
  destruct (replicas xm t) as [ | u0 us ] eqn:Hreplicas.
  { unfold replicas in Hreplicas. by destruct (peers_below xm). }
  apply (py_sum_returns sh n (cpu u0) (map cpu us)).
  change (cpu u0 :: map cpu us) with (map cpu (u0 :: us)).
  apply Forall_fmap. eapply Forall_impl; [ exact Hall | ]. by intros u Hu.
Qed.

Lemma mesh_reduce_raises (xm : XlaModel) (tag : string) (t : Tensor)
    (e : Exception) :
  mesh_reduce xm tag t py_sum = Raise e -> e = RuntimeError shape_msg.
Proof.
  unfold mesh_reduce.
  destruct (map cpu (replicas xm t)) as [ | u0 us ]; [ discriminate | ].
  apply py_sum_raises.
Qed.



Lemma output_tensor_raises (xm : XlaModel) (self : TPUSpawnStrategy)
    (output : PyVal) (e : Exception) :
  output_tensor xm self output = Raise e -> e = RuntimeError root_device_msg.
Proof.
  destruct output as [ x | t ]; simpl; [ | discriminate ].
  unfold root_device. destruct (negb (_launched self)); simpl.
  - by intros [= <-].
  - discriminate.
Qed.

Lemma reduce_valid_op (xm : XlaModel) (self : TPUSpawnStrategy)
    (output : PyVal) (reduce_op : ReduceOpArg) (msg : string) :
  invalid_reduce_op reduce_op || invalid_reduce_op_str reduce_op = false ->
  reduce xm self output reduce_op <> Raise (ValueError msg).
Proof.
  intros Hvalid Hraise. unfold reduce in Hraise.
  destruct (output_tensor xm self output) as [ t | e ] eqn:Hout.
  - simpl in Hraise. rewrite Hvalid in Hraise.
    destruct (mesh_reduce xm "reduce" t py_sum) as [ v | e ] eqn:Hsum.
    + simpl in Hraise.
      destruct reduce_op as [ | s | op | id ]; try discriminate Hraise.
      by destruct (bool_decide (lower s ∈ ["avg"; "mean"])).
    + apply mesh_reduce_raises in Hsum. simpl in Hraise. congruence.
  - apply output_tensor_raises in Hout. simpl in Hraise. congruence.
Qed.

(** C3, as the code has it.  Once the input is a tensor (given as one, or
    made one on the bound device), [reduce] raises the [ValueError] whose
    message ends with the operation for every [str] that in lower case is
    none of [sum], [mean], [avg] and for every [ReduceOp] other than
    [SUM], and for no other value of [reduce_op]. *)
Theorem reduce_rejects_unsupported (xm : XlaModel) (self : TPUSpawnStrategy)
    (output : PyVal) (t : Tensor) :
  output_tensor xm self output = Return t ->
  (forall s, lower s ∉ ["sum"; "mean"; "avg"] ->
     reduce xm self output (OpStr s) = Raise (ValueError (reduce_msg +:+ s)))
  /\ (forall op, op <> SUM ->
        reduce xm self output (OpEnum op)
        = Raise (ValueError (reduce_msg +:+ "ReduceOp." +:+ ReduceOp_name op)))
  /\ (forall reduce_op msg,
        reduce xm self output reduce_op = Raise (ValueError msg) ->
        (exists s, reduce_op = OpStr s /\ lower s ∉ ["sum"; "mean"; "avg"])
        \/ (exists op, reduce_op = OpEnum op /\ op <> SUM)).
Proof.
  intros Hout. split; [ | split ].
  - intros s Hs. unfold reduce. rewrite Hout. simpl.
    by rewrite bool_decide_eq_false_2.
  - intros op Hop. unfold reduce. rewrite Hout. simpl.
    by rewrite bool_decide_eq_false_2.
  - intros reduce_op msg Hraise.
    destruct (invalid_reduce_op reduce_op || invalid_reduce_op_str reduce_op)
      eqn:Hinvalid.
    + destruct reduce_op as [ | s | op | id ]; simpl in Hinvalid;
        try discriminate Hinvalid.
      * left. exists s. split; [ done | ].
        by apply negb_true_iff, bool_decide_eq_false in Hinvalid.
      * right. exists op. split; [ done | ].
        rewrite orb_false_r in Hinvalid.
        by apply negb_true_iff, bool_decide_eq_false in Hinvalid.
    + by apply reduce_valid_op in Hraise.
Qed.

Lemma reduce_rejects_unsupported_witness :
  output_tensor sample_xm (strategy (sample_worker 0)) (PNum 1)
  = Return (torch_tensor 1 (XLA 0))
  /\ reduce sample_xm (strategy (sample_worker 0)) (PNum 1) (OpStr "max")
     = Raise (ValueError (reduce_msg +:+ "max")).
Proof.
  split; [ reflexivity | ].
  apply (proj1 (reduce_rejects_unsupported sample_xm
                  (strategy (sample_worker 0)) (PNum 1)
                  (torch_tensor 1 (XLA 0)) eq_refl) "max").
  intros Hin. repeat (apply elem_of_cons in Hin as [ Hin | Hin ];
                      [ discriminate Hin | ]).
  by apply elem_of_nil in Hin.
Defined.

(** C3, as the specification words it, fails: [None] is outside [sum],
    [mean] and [avg], and [reduce] returns the sum for it. *)
Lemma reduce_None_not_rejected :
  reduce sample_xm (strategy (sample_worker 0)) (PNum 1) OpNone
  = Return (PTensor (mkTensor [] [(1 + 0 + 3)%Q] CPU))
  /\ ~ exists e,
         reduce sample_xm (strategy (sample_worker 0)) (PNum 1) OpNone
         = Raise e.
Proof.
  split; [ reflexivity | ]. intros [e He]. discriminate He.
Qed.

(** C10.  When [reduce_op] is [None] or of a type other than [str] and
    [ReduceOp], [reduce] is the coercion of the input followed by the sum
    over the processes, with no division, and is never the [ValueError]
    of an unsupported operation; for processes that agree on shape it
    returns a tensor of that shape. *)
Theorem reduce_op_of_other_type (xm : XlaModel) (self : TPUSpawnStrategy)
    (output : PyVal) (reduce_op : ReduceOpArg) :
  isinstance_str reduce_op = false ->
  isinstance_ReduceOp reduce_op = false ->
  reduce xm self output reduce_op
  = (let* t := output_tensor xm self output in
     mesh_reduce xm "reduce" t py_sum)
  /\ (forall msg, reduce xm self output reduce_op <> Raise (ValueError msg))
  /\ (forall t sh n,
        output_tensor xm self output = Return t ->
        Forall (same_shape sh n) (replicas xm t) ->
        exists r,
          reduce xm self output reduce_op = Return (PTensor r)
          /\ t_shape r = sh /\ length (t_data r) = n).
Proof.
  intros Hstr Henum.
  assert (Hvalid :
    invalid_reduce_op reduce_op || invalid_reduce_op_str reduce_op = false).
  { by destruct reduce_op. }
  assert (Hplain : reduce xm self output reduce_op
                   = (let* t := output_tensor xm self output in
                      mesh_reduce xm "reduce" t py_sum)).
  { unfold reduce.
    destruct (output_tensor xm self output) as [ t | e ]; [ | done ].
    simpl. rewrite Hvalid.
    destruct (mesh_reduce xm "reduce" t py_sum) as [ v | e ]; [ | done ].
    simpl. by destruct reduce_op. }
  split; [ exact Hplain | ].
  split; [ intros msg; by apply reduce_valid_op | ].
  intros t sh n Hout Hall.
  destruct (py_sum_replicas_returns xm t sh n Hall) as (r & Hsum & Hsh & Hn).
  exists r. rewrite Hplain, Hout. simpl. rewrite mesh_reduce_py_sum.
  by repeat split.
Qed.

Lemma reduce_op_of_other_type_witness :
  (isinstance_str OpNone = false /\ isinstance_ReduceOp OpNone = false)
  /\ reduce sample_xm (strategy (sample_worker 0)) (PNum 1) OpNone
     = (let* t := output_tensor sample_xm (strategy (sample_worker 0))
                    (PNum 1) in
        mesh_reduce sample_xm "reduce" t py_sum).
Proof.
  split; [ by split | ].
  exact (proj1 (reduce_op_of_other_type sample_xm
                  (strategy (sample_worker 0)) (PNum 1) OpNone
                  eq_refl eq_refl)).
Defined.

(** ** Broadcast in a distributed run *)





(** ** All-gather *)

Lemma all_gather_promotes (xm : XlaModel) (tensor : Tensor) :
  dim tensor = 0%nat ->
  all_gather xm tensor = xm_all_gather xm (unsqueeze0 tensor)
  /\ all_gather xm tensor = all_gather xm (unsqueeze0 tensor).
Proof.
  intros Hdim. unfold all_gather. rewrite Hdim. simpl. done.
Qed.

Lemma concat_replicate_singleton (v : Q) (us : list Tensor) :
  Forall (fun u => t_data u = [v]) us ->
  concat (map t_data us) = replicate (length us) v.
Proof.
  induction 1 as [ | u us Hu _ IH ]; [ done | ].
  simpl. by rewrite Hu, IH.
Qed.

(** The case of C6 that holds: a tensor without dimensions, holding [v],
    gathered with the promoted tensors of processes that hold [v] too,
    gives a vector with one [v] per process. *)
Lemma all_gather_zero_dim (xm : XlaModel) (v : Q) (d : Device) :
  Forall (fun u => t_shape u = [1%nat] /\ t_data u = [v])
    (peers_below xm ++ peers_above xm) ->
  all_gather xm (mkTensor [] [v] d)
  = Return (mkTensor [S (length (peers_below xm ++ peers_above xm))]
              (replicate (S (length (peers_below xm ++ peers_above xm))) v)
              d).
Proof.
  intros Hpeers. unfold all_gather, xm_all_gather, replicas. simpl.
  apply Forall_app in Hpeers as [Hbelow Habove].
  rewrite (concat_replicate_singleton v
             (peers_below xm ++ unsqueeze0 (mkTensor [] [v] d)
                :: peers_above xm)).
  - rewrite !length_app. simpl.
    replace ((length (peers_below xm) + S (length (peers_above xm))) * 1)%nat
      with (S (length (peers_below xm) + length (peers_above xm))) by lia.
    replace (length (peers_below xm) + S (length (peers_above xm)))%nat
      with (S (length (peers_below xm) + length (peers_above xm))) by lia.
    reflexivity.
  - apply Forall_app. split.
    + eapply Forall_impl; [ exact Hbelow | ]. by intros u [_ Hu].
    + apply Forall_cons. split; [ done | ].
      eapply Forall_impl; [ exact Habove | ]. by intros u [_ Hu].
Qed.

(** C6, where the code departs from it: the vector [(1, 2)], gathered in
    a world of two whose other process gives [(3, 4)], comes back as the
    vector [(1, 2, 3, 4)] of shape [(4)], not as a tensor of shape
    [(2, 2)]. *)
Theorem all_gather_vector_shape :
  all_gather sample_xm_vector (mkTensor [2%nat] [1%Q; 2%Q] (XLA 0))
  = Return (mkTensor [4%nat] [1%Q; 2%Q; 3%Q; 4%Q] (XLA 0))
  /\ [4%nat] <> 2%nat :: t_shape (mkTensor [2%nat] [1%Q; 2%Q] (XLA 0)).
Proof. split; [ reflexivity | discriminate ]. Qed.

(** * Further properties *)

(** ** The checkpoint-I/O delegate *)

(** X1.  The delegate that was set is the delegate that is read; when
    none is set, reading gives [XLACheckpointIO] and stores it, so that a
    second reading gives the same delegate and changes nothing more; no
    reading touches the launch flag or the ranks. *)
Theorem checkpoint_io_set_get (self : TPUSpawnStrategy) (io : CheckpointIO) :
  fst (checkpoint_io (set_checkpoint_io (Some io) self)) = io
  /\ fst (checkpoint_io (set_checkpoint_io None self)) = XLACheckpointIO
  /\ _checkpoint_io (snd (checkpoint_io self))
     = Some (fst (checkpoint_io self))
  /\ checkpoint_io (snd (checkpoint_io self))
     = (fst (checkpoint_io self), snd (checkpoint_io self))
  /\ base (snd (checkpoint_io self)) = base self
  /\ _launched (snd (checkpoint_io self)) = _launched self.
Proof.
  unfold checkpoint_io, set_checkpoint_io. simpl.
  destruct self as [ b [ io' | ] launched ]; simpl; by repeat split.
Qed.

Lemma checkpoint_io_base (self : TPUSpawnStrategy) :
  base (snd (checkpoint_io self)) = base self.
Proof.
  unfold checkpoint_io. by destruct (_checkpoint_io self).
Qed.

Lemma checkpoint_io_stored (self : TPUSpawnStrategy) :
  checkpoint_io (snd (checkpoint_io self))
  = (fst (checkpoint_io self), snd (checkpoint_io self)).
Proof.
  unfold checkpoint_io. by destruct self as [ b [ io' | ] launched ].
Qed.

(** X14.  On local rank 0 two removals in a row reach one and the same
    delegate, the one the first call found or created, in the order of
    the calls. *)
Theorem remove_checkpoint_twice (f1 f2 : string) (p : Process) :
  local_rank (base (strategy p)) = 0 ->
  io_calls (remove_checkpoint f2 (remove_checkpoint f1 p))
  = io_calls p
    ++ [RemoveCheckpoint (fst (checkpoint_io (strategy p))) f1;
        RemoveCheckpoint (fst (checkpoint_io (strategy p))) f2].
Proof.
  intros Hrank.
  assert (Hfirst : remove_checkpoint f1 p
    = mkProcess (snd (checkpoint_io (strategy p))) (rank_zero_only_rank p)
        (os_environ p)
        (io_calls p
         ++ [RemoveCheckpoint (fst (checkpoint_io (strategy p))) f1])).
  { unfold remove_checkpoint. rewrite Hrank. simpl.
    by destruct (checkpoint_io (strategy p)). }
  rewrite Hfirst. unfold remove_checkpoint at 1. simpl.
  rewrite checkpoint_io_base, Hrank. simpl.
  rewrite checkpoint_io_stored. simpl.
  by rewrite <- app_assoc.
Qed.

Lemma remove_checkpoint_twice_witness :
  local_rank (base (strategy (sample_worker 0))) = 0
  /\ io_calls (remove_checkpoint "b.ckpt"
                 (remove_checkpoint "a.ckpt" (sample_worker 0)))
     = io_calls (sample_worker 0)
       ++ [RemoveCheckpoint
             (fst (checkpoint_io (strategy (sample_worker 0)))) "a.ckpt";
           RemoveCheckpoint
             (fst (checkpoint_io (strategy (sample_worker 0)))) "b.ckpt"].
Proof.
  split; [ reflexivity | ].
  exact (remove_checkpoint_twice "a.ckpt" "b.ckpt" (sample_worker 0) eq_refl).
Defined.

(** ** Launch and worker setup *)

(** X2.  Launching is one-way: once a strategy is launched, no call that
    changes it unlaunches it, and [root_device] keeps returning the
    device. *)
Theorem launch_is_one_way `{DDPSpawnMethods} (xm : XlaModel) (p : Process)
    (cs : list Call) :
  _launched (strategy p) = true ->
  _launched (strategy (run cs p)) = true
  /\ root_device xm (strategy (run cs p)) = Return (xla_device xm).
Proof.
  intros Hlaunched.
  assert (Hrun : _launched (strategy (run cs p)) = true).
  { by rewrite launched_run, Hlaunched. }
  split; [ exact Hrun | ]. unfold root_device. by rewrite Hrun.
Qed.

Lemma launch_is_one_way_witness :
  _launched (strategy (sample_worker 1)) = true
  /\ root_device sample_xm
       (strategy (run [SetCheckpointIO None; CallRemoveCheckpoint "last.ckpt";
                       GetCheckpointIO] (sample_worker 1)))
     = Return (XLA 0).
Proof.
  split; [ reflexivity | ].
  exact (proj2 (launch_is_one_way sample_xm (sample_worker 1)
                  [SetCheckpointIO None; CallRemoveCheckpoint "last.ckpt";
                   GetCheckpointIO] eq_refl)).
Defined.

(** X3.  After [_worker_setup] the process-wide [rank_zero_only.rank] is
    the rank that [distributed_sampler_kwargs] hands to a sampler, and
    [num_replicas] is the world size; the setup changes the ranks through
    [set_world_ranks] only and leaves the checkpoint-I/O delegate, the
    environment and the delegates' calls alone. *)
Theorem worker_setup_ranks `{DDPSpawnMethods} (process_idx : Z) (p : Process) :
  let p' := _worker_setup process_idx p in
  distributed_sampler_kwargs (strategy p') !! "rank"
  = Some (rank_zero_only_rank p')
  /\ distributed_sampler_kwargs (strategy p') !! "num_replicas"
     = Some (world_size (base (strategy p')))
  /\ dom (distributed_sampler_kwargs (strategy p'))
     = ({[ "num_replicas"; "rank" ]} : gset string)
  /\ base (strategy p') = set_world_ranks process_idx (base (strategy p))
  /\ _checkpoint_io (strategy p') = _checkpoint_io (strategy p)
  /\ os_environ p' = os_environ p
  /\ io_calls p' = io_calls p.
Proof.
  simpl. unfold distributed_sampler_kwargs. simpl.
  split; [ by rewrite lookup_insert_ne, lookup_singleton_eq | ].
  split; [ by rewrite lookup_insert_eq | ].
  split; [ by rewrite dom_insert_L, dom_singleton_L | ].
  by repeat split.
Qed.

(** ** Teardown *)

(** X4.  After [teardown] the environment has no [PT_XLA_DEBUG], whether
    or not it had one, and every other variable is as the inherited
    teardown left it; so is [is_distributed]. *)
Theorem teardown_environ `{DDPSpawnTeardown} (p : Process) (name : string) :
  os_environ (teardown p) !! name
  = (if decide (name = "PT_XLA_DEBUG") then None
     else os_environ (super_teardown p) !! name)
  /\ is_distributed (teardown p) = is_distributed (super_teardown p)
  /\ strategy (teardown p) = strategy (super_teardown p)
  /\ io_calls (teardown p) = io_calls (super_teardown p).
Proof.
  unfold teardown, is_distributed. simpl.
  split; [ | by rewrite lookup_delete_ne ].
  case_decide as Hname.
  - subst name. apply lookup_delete_eq.
  - by rewrite lookup_delete_ne.
Qed.

(** ** Dataloaders *)

(** X13.  [process_dataloader] checks the length before it reads the
    device: a dataloader without a length is rejected with the
    [TypeError] launched or not; one with a length raises the
    [RuntimeError] on an unlaunched strategy, and on a launched one comes
    back wrapped for the device of the process, with the dataset of the
    loader it wraps. *)
Theorem process_dataloader_outcome `{DataLoaderDataset Dataset}
    (xm : XlaModel) (self : TPUSpawnStrategy) (dataloader : DataLoader) :
  process_dataloader xm self dataloader
  = if has_len dataloader then
      if _launched self then
        Return (mkMpDeviceLoader dataloader (xla_device xm)
                  (Some (dataloader_dataset dataloader)))
      else Raise (RuntimeError root_device_msg)
    else Raise (TypeError check_has_len_msg).
Proof.
  unfold process_dataloader, _validate_dataloader, root_device. simpl.
  unfold check_has_len.
  destruct (has_len dataloader); simpl; [ | done ].
  by destruct (_launched self).
Qed.

(** ** Saving checkpoints *)

(** X15.  When the processes of a node save a checkpoint, every one of
    them, whatever its local rank, sends its delegate one
    [save_checkpoint] with the arguments as given, in the order of the
    processes; no removal is made, and afterwards every strategy holds a
    delegate. *)
Theorem save_checkpoint_every_rank {Checkpoint Options : Type}
    (checkpoint : Checkpoint) (filepath : string)
    (storage_options : option Options) (ps : list Process)
    (saves : list (SaveCall Checkpoint Options)) :
  let ran :=
    save_checkpoint_all checkpoint filepath storage_options ps saves in
  snd ran
  = saves
    ++ map (fun p => SaveCheckpoint (fst (checkpoint_io (strategy p)))
                       checkpoint filepath storage_options) ps
  /\ map io_calls (fst ran) = map io_calls ps
  /\ map (fun p => local_rank (base (strategy p))) (fst ran)
     = map (fun p => local_rank (base (strategy p))) ps
  /\ Forall (fun p => is_Some (_checkpoint_io (strategy p))) (fst ran).
Proof.
  simpl. revert saves.
  induction ps as [ | p ps IH ]; intros saves; simpl.
  - by rewrite app_nil_r.
  - unfold save_checkpoint.
    destruct (checkpoint_io (strategy p)) as [io self] eqn:Hio.
    specialize (IH (saves
      ++ [SaveCheckpoint io checkpoint filepath storage_options])).
    destruct (save_checkpoint_all checkpoint filepath storage_options ps
                (saves
                 ++ [SaveCheckpoint io checkpoint filepath storage_options]))
      as [ps' saves'].
    simpl in *. destruct IH as (Hsaves & Hcalls & Hranks & Hsome).
    split; [ by rewrite Hsaves, <- app_assoc | ].
    split; [ by rewrite Hcalls | ].
    split.
    + rewrite Hranks. f_equal.
      pose proof (checkpoint_io_base (strategy p)) as Hbase.
      rewrite Hio in Hbase. simpl in Hbase. by rewrite Hbase.
    + apply Forall_cons. split; [ | exact Hsome ]. simpl.
      unfold checkpoint_io in Hio.
      destruct (_checkpoint_io (strategy p)) as [ io' | ] eqn:Hstored;
        injection Hio as <- <-; simpl; [ by rewrite Hstored | done ].
Qed.

(** ** Optimizer step: what it leaves alone *)

(** X16.  Whatever the outcome, [optimizer_step] calls the closure once,
    keeps the earlier calls as they were, and never steps an optimizer
    other than its own. *)
Theorem optimizer_step_frame (model : Model) (optimizer other : nat)
    (optimizer_idx : Z) (closure_result : option Tensor)
    (calls : list PluginCall) :
  other <> optimizer ->
  let ran :=
    optimizer_step model optimizer optimizer_idx closure_result calls in
  steps other (snd ran) = steps other calls
  /\ length (filter (fun c => c = CallClosure) (snd ran))
     = S (length (filter (fun c => c = CallClosure) calls))
  /\ take (length calls) (snd ran) = calls.
Proof.
  intros Hother. simpl. unfold optimizer_step.
  assert (Hcalls :
    (calls ++ [CallClosure]) ++ [CallAfterClosure optimizer optimizer_idx]
    = calls ++ [CallClosure; CallAfterClosure optimizer optimizer_idx]).
  { by rewrite <- app_assoc. }
  rewrite Hcalls.
  assert (Hstep : steps other [CallOptimizerStep optimizer] = 0%nat).
  { unfold steps. rewrite filter_cons. case_decide as Heq; [ | done ].
    injection Heq as Heq. by subst. }
  assert (Hbefore :
    steps other [CallClosure; CallAfterClosure optimizer optimizer_idx]
    = 0%nat).
  { unfold steps.
    repeat (rewrite filter_cons; case_decide; [ discriminate | ]).
    reflexivity. }
  assert (Hclosure :
    length (filter (fun c => c = CallClosure)
              [CallClosure; CallAfterClosure optimizer optimizer_idx])
    = 1%nat).
  { rewrite filter_cons. case_decide; [ | done ].
    rewrite filter_cons. by case_decide. }
  assert (Hnone :
    length (filter (fun c => c = CallClosure) [CallOptimizerStep optimizer])
    = 0%nat).
  { rewrite filter_cons. by case_decide. }
  destruct (match model with
            | LightningModule automatic_optimization =>
                automatic_optimization
                && bool_decide (closure_result = None)
            | OtherModule => false
            end); simpl;
    rewrite ?steps_app, ?filter_app, ?length_app, ?Hstep, ?Hbefore,
      ?Hclosure, ?Hnone;
    (split; [ lia | ]); (split; [ lia | ]);
    rewrite <- ?app_assoc; by rewrite take_app_length.
Qed.

Lemma optimizer_step_frame_witness :
  (1 <> 0)%nat
  /\ steps 1 (snd (optimizer_step (LightningModule true) 0 0 None
                     [CallOptimizerStep 1]))
     = steps 1 [CallOptimizerStep 1].
Proof.
  assert (Hother : (1 <> 0)%nat) by discriminate.
  split; [ exact Hother | ].
  exact (proj1 (optimizer_step_frame (LightningModule true) 0 1 0 None
                  [CallOptimizerStep 1] Hother)).
Defined.

(** ** Reduce: the forms of the operation *)

Lemma reduce_plain (xm : XlaModel) (self : TPUSpawnStrategy)
    (output : PyVal) (reduce_op : ReduceOpArg) :
  invalid_reduce_op reduce_op || invalid_reduce_op_str reduce_op = false ->
  (forall s, reduce_op = OpStr s -> lower s ∉ ["avg"; "mean"]) ->
  reduce xm self output reduce_op
  = (let* t := output_tensor xm self output in
     mesh_reduce xm "reduce" t py_sum).
Proof.
  intros Hvalid Hplain. unfold reduce.
  destruct (output_tensor xm self output) as [ t | e ]; [ | done ].
  simpl. rewrite Hvalid.
  destruct (mesh_reduce xm "reduce" t py_sum) as [ v | e ]; [ | done ].
  simpl. destruct reduce_op as [ | s | op | id ]; try done.
  by rewrite bool_decide_eq_false_2 by (by apply Hplain).
Qed.

Lemma reduce_mean (xm : XlaModel) (self : TPUSpawnStrategy)
    (output : PyVal) (s : string) :
  lower s ∈ ["avg"; "mean"] ->
  reduce xm self output (OpStr s)
  = (let* t := output_tensor xm self output in
     let* v := mesh_reduce xm "reduce" t py_sum in
     Return (py_truediv v (world_size (base self)))).
Proof.
  intros Hmean. unfold reduce.
  destruct (output_tensor xm self output) as [ t | e ]; [ | done ].
  simpl.
  assert (Hvalid : lower s ∈ ["sum"; "mean"; "avg"]).
  { apply elem_of_cons in Hmean as [ -> | Hmean ].
    - apply list_elem_of_further, list_elem_of_further, list_elem_of_here.
    - apply list_elem_of_singleton in Hmean as ->.
      apply list_elem_of_further, list_elem_of_here. }
  rewrite (bool_decide_eq_true_2 _ Hvalid). simpl.
  destruct (mesh_reduce xm "reduce" t py_sum) as [ v | e ]; [ | done ].
  simpl. by rewrite (bool_decide_eq_true_2 _ Hmean).
Qed.

Lemma lower_sum_plain (s : string) :
  lower s = "sum" ->
  invalid_reduce_op (OpStr s) || invalid_reduce_op_str (OpStr s) = false
  /\ forall s', OpStr s = OpStr s' -> lower s' ∉ ["avg"; "mean"].
Proof.
  intros Hs. split.
  - simpl. rewrite Hs. reflexivity.
  - intros s' [= <-]. rewrite Hs. intros Hin.
    apply elem_of_cons in Hin as [ Hin | Hin ]; [ discriminate Hin | ].
    apply list_elem_of_singleton in Hin. discriminate Hin.
Qed.

(** X5.  [None], [ReduceOp.SUM], an object of another type and the
    string [sum] in any letter case all make [reduce] do the same thing,
    on every input, errors included. *)
Theorem reduce_sum_forms (xm : XlaModel) (self : TPUSpawnStrategy)
    (output : PyVal) (s : string) (id : nat) :
  lower s = "sum" ->
  reduce xm self output (OpStr s) = reduce xm self output OpNone
  /\ reduce xm self output (OpEnum SUM) = reduce xm self output OpNone
  /\ reduce xm self output (OpOther id) = reduce xm self output OpNone.
Proof.
  intros Hs. destruct (lower_sum_plain s Hs) as [Hvalid Hplain].
  rewrite (reduce_plain xm self output (OpStr s) Hvalid Hplain).
  rewrite !(reduce_plain xm self output OpNone) by done.
  rewrite (reduce_plain xm self output (OpEnum SUM)) by done.
  by rewrite (reduce_plain xm self output (OpOther id)) by done.
Qed.

Lemma reduce_sum_forms_witness :
  lower "Sum" = "sum"
  /\ reduce sample_xm (strategy (sample_worker 0)) (PNum 1) (OpStr "Sum")
     = reduce sample_xm (strategy (sample_worker 0)) (PNum 1) OpNone.
Proof.
  split; [ reflexivity | ].
  exact (proj1 (reduce_sum_forms sample_xm (strategy (sample_worker 0))
                  (PNum 1) "Sum" 0 eq_refl)).
Defined.

(** X6.  On every input, [reduce] with [mean] or [avg] in any letter case
    is [reduce] without an operation followed by the division by
    [world_size]; when the sum raises, so does the mean, with the same
    exception. *)
Theorem reduce_mean_is_sum_divided (xm : XlaModel) (self : TPUSpawnStrategy)
    (output : PyVal) (s : string) :
  lower s ∈ ["mean"; "avg"] ->
  reduce xm self output (OpStr s)
  = (let* v := reduce xm self output OpNone in
     Return (py_truediv v (world_size (base self)))).
Proof.
  intros Hmean.
  assert (Hmean' : lower s ∈ ["avg"; "mean"]).
  { apply elem_of_cons in Hmean as [ -> | Hmean ].
    - apply list_elem_of_further, list_elem_of_here.
    - apply list_elem_of_singleton in Hmean as ->. apply list_elem_of_here. }
  rewrite (reduce_mean xm self output s Hmean').
  rewrite (reduce_plain xm self output OpNone) by done.
  by destruct (output_tensor xm self output).
Qed.

Lemma reduce_mean_is_sum_divided_witness :
  lower "AVG" ∈ ["mean"; "avg"]
  /\ reduce sample_xm (strategy (sample_worker 0)) (PNum 1) (OpStr "AVG")
     = (let* v := reduce sample_xm (strategy (sample_worker 0)) (PNum 1)
                    OpNone in
        Return (py_truediv v
                  (world_size (base (strategy (sample_worker 0)))))).
Proof.
  assert (Hmean : lower "AVG" ∈ ["mean"; "avg"]).
  { apply list_elem_of_further, list_elem_of_here. }
  split; [ exact Hmean | ].
  exact (reduce_mean_is_sum_divided sample_xm (strategy (sample_worker 0))
           (PNum 1) "AVG" Hmean).
Defined.

(** X7.  On a strategy that is not launched, [reduce] of a value that is
    not a tensor raises the [RuntimeError] of the device guard whatever
    the operation, an unsupported one included: the input is made a
    tensor before the operation is looked at. *)
Theorem reduce_before_launch (xm : XlaModel) (self : TPUSpawnStrategy)
    (x : Q) (reduce_op : ReduceOpArg) :
  _launched self = false ->
  reduce xm self (PNum x) reduce_op = Raise (RuntimeError root_device_msg).
Proof.
  intros Hlaunched. unfold reduce, output_tensor, root_device.
  by rewrite Hlaunched.
Qed.

Lemma reduce_before_launch_witness :
  _launched (strategy sample_process) = false
  /\ reduce sample_xm (strategy sample_process) (PNum 1) (OpStr "max")
     = Raise (RuntimeError root_device_msg).
Proof.
  split; [ reflexivity | ].
  exact (reduce_before_launch sample_xm (strategy sample_process) 1
           (OpStr "max") eq_refl).
Defined.



(** ** All-gather never raises *)


(** ** Broadcast: guard and agreement *)

(** X11.  On a strategy that is not launched, [broadcast] still returns
    the object outside a distributed run, and in one raises the
    [RuntimeError] of the device guard. *)
Theorem broadcast_before_launch `{Pickle Obj} (xm : XlaModel) (p : Process)
    (obj : Obj) (src : Z) :
  _launched (strategy p) = false ->
  broadcast xm p obj src
  = if is_distributed p then Raise (RuntimeError root_device_msg)
    else Return obj.
Proof.
  intros Hlaunched. unfold broadcast, root_device. rewrite Hlaunched.
  by destruct (is_distributed p).
Qed.

Lemma broadcast_before_launch_witness :
  _launched (strategy sample_process) = false
  /\ broadcast sample_xm_bytes sample_process [Byte.x01; Byte.x02] 0
     = Raise (RuntimeError root_device_msg).
Proof.
  split; [ reflexivity | ].
  exact (broadcast_before_launch sample_xm_bytes sample_process
           [Byte.x01; Byte.x02] 0 eq_refl).
Defined.



